(** * strawberry.schema.schema: the Schema aggregate and its execution façade

    A shallow embedding of [strawberry/schema/schema.py].  The class [Schema]
    assembles a type registry, a middleware list, an extensions runner and an
    engine-native schema at construction, and exposes [get_type_by_name],
    [execute], [execute_sync] and [subscribe].

    Everything the module imports is a collaborator: graphql-core ([parse],
    [subscribe], [GraphQLSchema], [specified_directives]) and the sibling
    modules of the package ([.execute], [.types], [..middleware],
    [strawberry.extensions]).  The collaborators are interfaces here (type
    classes), so every statement about [Schema] holds for each implementation
    of them; a small concrete implementation at the end of the definitions is
    used to run the methods on concrete inputs. *)

From stdpp Require Import base option list gmap strings.

Open Scope string_scope.
Open Scope list_scope.

Set Warnings "-register-all".

(** ** Python values, exceptions and results *)

Module Py.

(** A raised exception: the name of its class and its message. *)
Record exn : Type := Exn { exn_class : string; exn_msg : string }.

(** The outcome of evaluating an expression: a raised exception or a value. *)
Definition result (A : Type) : Type := (exn + A)%type.

Definition ret {A : Type} (a : A) : result A := inr a.
Definition raise {A : Type} (e : exn) : result A := inl e.

Definition bind {A B : Type} (m : result A) (k : A → result B) : result B :=
  match m with
  | inl e => inl e
  | inr a => k a
  end.

Definition TypeError (msg : string) : exn := Exn "TypeError" msg.
Definition KeyError (key : string) : exn := Exn "KeyError" key.
Definition AttributeError (msg : string) : exn := Exn "AttributeError" msg.

(** Structured data ([Any], [Dict[str, Any]]): the values carried by
    [data], by variables, by the context and root values, and by the
    entries of [extensions]. *)
Inductive value : Type :=
| VNone
| VBool (b : bool)
| VInt (n : Z)
| VStr (s : string)
| VList (items : list value)
| VDict (items : list (string * value)).

End Py.

Abbreviation exn := Py.exn.
Abbreviation result := Py.result.
Abbreviation value := Py.value.

(** ** Definitions held by the type registry *)

(** Modelled from the spec: [strawberry.types.types.TypeDefinition],
    [strawberry.custom_scalar.ScalarDefinition] and
    [strawberry.enum.EnumDefinition] are not part of this module; the spec
    describes the [definition] payload of a registry entry as a tagged union
    of an object-type, a scalar and an enum definition, each carrying the
    name of the type. *)
Record TypeDefinition : Type :=
  { td_name : string; td_is_input : bool; td_fields : list string }.

Record ScalarDefinition : Type :=
  { sd_name : string; sd_description : option string }.

Record EnumDefinition : Type :=
  { ed_name : string; ed_values : list string }.

(** [Union[TypeDefinition, ScalarDefinition, EnumDefinition]], the return
    type of [get_type_by_name]. *)
Inductive AnyDefinition : Type :=
| ObjectDef (d : TypeDefinition)
| ScalarDef (d : ScalarDefinition)
| EnumDef (d : EnumDefinition).

Definition definition_name (d : AnyDefinition) : string :=
  match d with
  | ObjectDef d => td_name d
  | ScalarDef d => sd_name d
  | EnumDef d => ed_name d
  end.

(** ** Results *)

(** graphql-core's [GraphQLError], as far as a response shows it. *)
Record GraphQLError : Type :=
  { message : string; path : list string }.

(** graphql-core's [ExecutionResult] (imported as [GraphQLExecutionResult]). *)
Record GraphQLExecutionResult : Type :=
  { gql_data : option value; gql_errors : option (list GraphQLError) }.

(** Modelled from the spec: [strawberry.schema.base.ExecutionResult] is not
    part of this module; the spec gives it [data], [errors] and
    [extensions], the three fields the source sets. *)
Record ExecutionResult : Type :=
  { data : option value;
    errors : option (list GraphQLError);
    extensions : option (gmap string value) }.

(** The keyword arguments shared by the three entry points. *)
Record ExecArgs : Type :=
  { variable_values : option (gmap string value);
    context_value : option value;
    root_value : option value;
    operation_name : option string }.

(** ** The collaborators *)

(** The opaque types of the collaborators. *)
Class EngineTypes : Type :=
  { (** what a caller passes as [query], [mutation], [subscription] or as an
        element of [types]: any object; [get_object_type] decides whether it
        is a host type declaration *)
    HostType : Type;
    (** what a caller passes as an element of [directives] *)
    DirectiveDecl : Type;
    (** engine-native descriptors *)
    GraphQLObjectType : Type;
    GraphQLDirective : Type;
    (** the parsed query *)
    DocumentNode : Type;
    (** what the subscription primitive resolves to: the event sequence *)
    SubscriptionResult : Type }.

(** Modelled from the spec: [..middleware] is not part of this module; the
    spec has the variants "at minimum a DirectivesMiddleware" and any other
    middleware.  [DirectivesMiddleware(directives)] is the only one the
    source builds; [OtherMiddleware] stands for any other one. *)
Inductive Middleware `{EngineTypes} : Type :=
| DirectivesMiddleware (directives : list DirectiveDecl)
| OtherMiddleware (tag : string).

(** Modelled from the spec: [.types.ConcreteType] is not part of this
    module; a registry entry "carries a definition payload" (the source
    reads its [definition]) next to the engine-native type built for it. *)
Record ConcreteType `{EngineTypes} : Type :=
  { definition : AnyDefinition; implementation : GraphQLObjectType }.

(** [graphql.GraphQLSchema]: the engine-native schema keeps the keyword
    arguments its constructor was given. *)
Record GraphQLSchema `{EngineTypes} : Type :=
  { schema_query : GraphQLObjectType;
    schema_mutation : option GraphQLObjectType;
    schema_subscription : option GraphQLObjectType;
    schema_directives : list GraphQLDirective;
    schema_types : list GraphQLObjectType }.

(** The functions this module imports from [.types], [graphql],
    [graphql.subscription] and [graphql.type.directives].  The two functions
    of [.types] receive the registry and return it updated. *)
Class Collaborators `{EngineTypes} : Type :=
  { get_object_type :
      HostType → gmap string ConcreteType →
      result (GraphQLObjectType * gmap string ConcreteType);
    (** the [name] attribute of an engine-native object type *)
    object_type_name : GraphQLObjectType → string;
    get_directive_type :
      DirectiveDecl → gmap string ConcreteType →
      result (GraphQLDirective * gmap string ConcreteType);
    (** the [name] attribute of an engine-native directive *)
    directive_name : GraphQLDirective → string;
    specified_directives : list GraphQLDirective;
    (** the checks of the [GraphQLSchema] constructor: [Some e] when it
        raises [e] on these arguments *)
    GraphQLSchema_check : GraphQLSchema → option exn;
    parse : string → result DocumentNode;
    (** [graphql.subscription.subscribe], awaited *)
    subscribe :
      GraphQLSchema → DocumentNode → ExecArgs → result SubscriptionResult }.

(** The arguments of one call of [.execute.execute], the extensions runner
    apart (it is the state the call works on). *)
Record ExecuteCall `{EngineTypes} : Type :=
  { call_schema : GraphQLSchema;
    call_query : string;
    call_variable_values : option (gmap string value);
    call_root_value : option value;
    call_context_value : option value;
    call_operation_name : option string;
    call_additional_middlewares : list Middleware }.

(** [AwaitableOrValue[GraphQLExecutionResult]]. *)
Inductive AwaitableOrValue (Awaitable : Type) : Type :=
| Completed (r : GraphQLExecutionResult)
| Pending (aw : Awaitable).
Arguments Completed {Awaitable} r.
Arguments Pending {Awaitable} aw.

(** [.execute] and [strawberry.extensions].  The runner is a mutable object:
    [execute] and the awaiting of its pending value take the runner's state
    and return the state they leave it in. *)
Class Executor `{EngineTypes} : Type :=
  { Extension : Type;
    ExtensionsRunner : Type;
    (** [ExtensionsRunner(extensions)] *)
    ExtensionsRunner_init : list Extension → ExtensionsRunner;
    get_extensions_results : ExtensionsRunner → gmap string value;
    (** a value that [isawaitable]; it has no attribute but [__await__] *)
    Awaitable : Type;
    execute :
      ExecuteCall → ExtensionsRunner →
      result (AwaitableOrValue Awaitable) * ExtensionsRunner;
    (** [await aw]: the event loop drives [aw] to its result *)
    await :
      Awaitable → ExtensionsRunner →
      result GraphQLExecutionResult * ExtensionsRunner }.

(** ** The Schema class *)

Module Schema.
Section Schema.

Context {T : EngineTypes} {C : Collaborators} {X : Executor}.

(** The attributes [__init__] sets on [self].  [extensions_runner] is the
    one runner object the Schema owns: its field holds the state the object
    is in. *)
Record t : Type :=
  { type_map : gmap string ConcreteType;
    middleware : list Middleware;
    _schema : GraphQLSchema;
    query : ConcreteType;
    extensions_runner : ExtensionsRunner }.

(** *** Construction: code that fills [self.type_map] and may raise *)

Definition Build (A : Type) : Type :=
  gmap string ConcreteType → result (A * gmap string ConcreteType).

Definition build_ret {A : Type} (a : A) : Build A :=
  λ tm, Py.ret (a, tm).

Definition build_bind {A B : Type} (m : Build A) (k : A → Build B) : Build B :=
  λ tm, match m tm with
        | inl e => inl e
        | inr (a, tm') => k a tm'
        end.

Definition build_lift {A : Type} (r : result A) : Build A :=
  λ tm, match r with
        | inl e => inl e
        | inr a => inr (a, tm)
        end.

(** The registry as it is now: [self.type_map]. *)
Definition build_get : Build (gmap string ConcreteType) :=
  λ tm, Py.ret (tm, tm).

Declare Scope build_scope.
Delimit Scope build_scope with build.
Notation "x <- m ;; k" := (build_bind m (λ x, k))
  (at level 100, m at next level, right associativity) : build_scope.
Local Open Scope build_scope.

(** A list comprehension [[f(x, self.type_map) for x in xs]]: the calls run
    left to right, each on the registry the previous one left. *)
Fixpoint build_map {A B : Type} (f : A → Build B) (xs : list A)
  : Build (list B) :=
  match xs with
  | [] => build_ret []
  | x :: xs' =>
      y <- f x ;;
      ys <- build_map f xs' ;;
      build_ret (y :: ys)
  end.

(** [GraphQLSchema(query=..., mutation=..., ...)]. *)
Definition GraphQLSchema_new (kw : GraphQLSchema) : result GraphQLSchema :=
  match GraphQLSchema_check kw with
  | Some e => Py.raise e
  | None => Py.ret kw
  end.

(** [self.type_map[key]]. *)
Definition type_map_getitem (tm : gmap string ConcreteType) (key : string)
  : result ConcreteType :=
  match tm !! key with
  | Some ct => Py.ret ct
  | None => Py.raise (Py.KeyError key)
  end.

(** [get_object_type(root, self.type_map) if root else None], for [root]
    one of [mutation] and [subscription].  The test is on the truth value
    of [root]: [Some h] is a root whose truth value is true, as that of a
    class is; [None] is a root that was not passed (the default [None]) or
    whose truth value is false. *)
Definition optional_root (root : option HostType)
  : Build (option GraphQLObjectType) :=
  match root with
  | Some h => g <- get_object_type h ;; build_ret (Some g)
  | None => build_ret None
  end.

(** The body of [__init__], for a [query] that was passed.  The classes
    [DirectivesMiddleware] and [ExtensionsRunner] are not part of this
    module: [DirectivesMiddleware(directives)] and
    [ExtensionsRunner(extensions)] are taken to return their object, and a
    construction in which one of the two raises is not described here. *)
Definition init_body (query : HostType) (mutation subscription : option HostType)
    (directives : list DirectiveDecl) (types : list HostType)
    (extensions : list Extension) : Build t :=
  query_type <- get_object_type query ;;
  mutation_type <- optional_root mutation ;;
  subscription_type <- optional_root subscription ;;
  let middleware := [DirectivesMiddleware directives] in
  directives' <- build_map get_directive_type directives ;;
  let kw_subscription :=
    match subscription with
    | Some _ => subscription_type
    | None => None
    end in
  let kw_directives := specified_directives ++ directives' in
  kw_types <- build_map get_object_type types ;;
  _schema <- build_lift
    (GraphQLSchema_new
       {| schema_query := query_type;
          schema_mutation := mutation_type;
          schema_subscription := kw_subscription;
          schema_directives := kw_directives;
          schema_types := kw_types |}) ;;
  type_map <- build_get ;;
  query <- build_lift (type_map_getitem type_map (object_type_name query_type)) ;;
  build_ret
    {| type_map := type_map;
       middleware := middleware;
       _schema := _schema;
       query := query;
       extensions_runner := ExtensionsRunner_init extensions |}.

(** [Schema(query, mutation=None, subscription=None, directives=(),
    types=(), extensions=())].  [query] has no default: [None] here is a
    call that does not pass it, which Python refuses before the body runs.
    [mutation] and [subscription] default to [None]; [None] here is that
    default, or another value whose truth value is false. *)
Definition __init__ (query : option HostType)
    (mutation subscription : option HostType)
    (directives : list DirectiveDecl) (types : list HostType)
    (extensions : list Extension) : result t :=
  match query with
  | None =>
      Py.raise
        (Py.TypeError "__init__() missing 1 required positional argument: 'query'")
  | Some query =>
      match init_body query mutation subscription directives types extensions ∅ with
      | inl e => inl e
      | inr (self, _) => inr self
      end
  end.

Local Close Scope build_scope.

(** *** Methods: code that runs on [self] and may raise *)

(** [self.type_map[name].definition] when [name in self.type_map], else
    [None]. *)
Definition get_type_by_name (self : t) (name : string) : option AnyDefinition :=
  match type_map self !! name with
  | Some ct => Some (definition ct)
  | None => None
  end.

(** A method leaves [self] in a new state whether it returns or raises. *)
Definition Method (A : Type) : Type := t → result A * t.

Definition method_ret {A : Type} (a : A) : Method A := λ self, (inr a, self).

Definition method_raise {A : Type} (e : exn) : Method A := λ self, (inl e, self).

Definition method_bind {A B : Type} (m : Method A) (k : A → Method B)
  : Method B :=
  λ self, match m self with
          | (inl e, self') => (inl e, self')
          | (inr a, self') => k a self'
          end.

Definition get_self : Method t := λ self, (inr self, self).

(** [self] once a call has worked on the object [self.extensions_runner]
    and left it in the state [runner]. *)
Definition with_runner (self : t) (runner : ExtensionsRunner) : t :=
  {| type_map := type_map self;
     middleware := middleware self;
     _schema := _schema self;
     query := query self;
     extensions_runner := runner |}.

(** A call that works on the object [self.extensions_runner]. *)
Definition on_runner {A : Type}
    (f : ExtensionsRunner → result A * ExtensionsRunner) : Method A :=
  λ self,
    let '(r, runner) := f (extensions_runner self) in
    (r, with_runner self runner).

Declare Scope method_scope.
Delimit Scope method_scope with method.
Notation "x <- m ;; k" := (method_bind m (λ x, k))
  (at level 100, m at next level, right associativity) : method_scope.
Local Open Scope method_scope.

(** [result.data] and [result.errors] on what [execute] returned: a pending
    value is a coroutine object and has neither attribute. *)
Definition getattr_data (r : AwaitableOrValue Awaitable)
  : Method (option value) :=
  match r with
  | Completed r => method_ret (gql_data r)
  | Pending _ =>
      method_raise (Py.AttributeError "'coroutine' object has no attribute 'data'")
  end.

Definition getattr_errors (r : AwaitableOrValue Awaitable)
  : Method (option (list GraphQLError)) :=
  match r with
  | Completed r => method_ret (gql_errors r)
  | Pending _ =>
      method_raise (Py.AttributeError "'coroutine' object has no attribute 'errors'")
  end.

(** The arguments [execute] and [execute_sync] call the imported [execute]
    with; the two calls are written alike:
    [execute(self._schema, query, variable_values=variable_values,
    root_value=root_value, context_value=context_value,
    operation_name=operation_name, additional_middlewares=self.middleware,
    extensions_runner=self.extensions_runner)]. *)
Definition engine_call (self : t) (query : string) (a : ExecArgs) : ExecuteCall :=
  {| call_schema := _schema self;
     call_query := query;
     call_variable_values := variable_values a;
     call_root_value := root_value a;
     call_context_value := context_value a;
     call_operation_name := operation_name a;
     call_additional_middlewares := middleware self |}.

(** [self.extensions_runner.get_extensions_results()]. *)
Definition extensions_results : Method (gmap string value) :=
  on_runner (λ runner, (inr (get_extensions_results runner), runner)).

(** [execute_sync]: the engine is called and the attributes of what it
    returned are read at once.  (Defined before [execute] so that [execute]
    in its body is the imported function, as in the source.) *)
Definition execute_sync (query : string) (a : ExecArgs) : Method ExecutionResult :=
  self <- get_self ;;
  result <- on_runner (execute (engine_call self query a)) ;;
  data <- getattr_data result ;;
  errors <- getattr_errors result ;;
  extensions <- extensions_results ;;
  method_ret {| data := data; errors := errors; extensions := Some extensions |}.

(** [async def execute], run to its end: the coroutine calls the engine,
    awaits what it returned when that [isawaitable], and builds the
    result. *)
Definition execute (query : string) (a : ExecArgs) : Method ExecutionResult :=
  self <- get_self ;;
  result <- on_runner (execute (engine_call self query a)) ;;
  result <-
    match result with
    | Pending aw => on_runner (await aw)
    | Completed r => method_ret r
    end ;;
  extensions <- extensions_results ;;
  method_ret
    {| data := gql_data result;
       errors := gql_errors result;
       extensions := Some extensions |}.

(** [async def subscribe], run to its end: [parse(query)] is an argument of
    the call of the subscription primitive, so it is evaluated, and may
    raise, before the primitive is called.  Neither [self.middleware] nor
    [self.extensions_runner] is an argument. *)
Definition subscribe (query : string) (a : ExecArgs) : Method SubscriptionResult :=
  self <- get_self ;;
  document <- (λ self', (parse query, self')) ;;
  (λ self', (subscribe (_schema self) document a, self')).

(** *** A Schema in use *)

(** The entry point a request comes through. *)
Inductive Entry : Type :=
| via_execute
| via_execute_sync
| via_subscribe.

(** The state a request leaves [self] in, whatever it returned or raised. *)
Definition serve (rq : Entry * string * ExecArgs) (self : t) : t :=
  match rq with
  | (via_execute, query, a) => (execute query a self).2
  | (via_execute_sync, query, a) => (execute_sync query a self).2
  | (via_subscribe, query, a) => (subscribe query a self).2
  end.

(** Requests served one after the other, the first of the list first. *)
Definition serve_all (history : list (Entry * string * ExecArgs)) (self : t) : t :=
  foldl (λ self rq, serve rq self) self history.

End Schema.
End Schema.

(** ** The contract of the registry *)

(** Every entry of the registry is stored under the name of its
    definition. *)
Definition keyed_by_name `{EngineTypes} (tm : gmap string ConcreteType) : Prop :=
  ∀ key ct, tm !! key = Some ct → definition_name (definition ct) = key.

(** Modelled from the spec: [.types] is not part of this module; the spec
    has its functions register "every reachable type ... keyed by name".
    A call that finds the registry keyed by name leaves it so. *)
Definition registers_by_name `{Collaborators} : Prop :=
  (∀ h tm g tm',
     keyed_by_name tm → get_object_type h tm = inr (g, tm') → keyed_by_name tm')
  ∧ (∀ d tm g tm',
       keyed_by_name tm → get_directive_type d tm = inr (g, tm') →
       keyed_by_name tm').

(** ** The extensions runner and the execute primitive *)

(** [strawberry.extensions] and [.execute] are not part of this module.
    [Runner] gives the implementation of [Executor] that the spec describes,
    over the engine's own execution of a query. *)

(** graphql-core's execution of a query, by itself: it completes or returns
    a pending value, and knows nothing of the runner. *)
Class RawEngine `{EngineTypes} : Type :=
  { RawAwaitable : Type;
    graphql_execute : ExecuteCall → result (AwaitableOrValue RawAwaitable);
    graphql_await : RawAwaitable → result GraphQLExecutionResult }.

Module Runner.

(** Modelled from the spec: the lifecycle hooks of an extension ("on-start,
    on-end, on-parse, on-validate, on-execute hooks");
    [strawberry.extensions.Extension] is not part of this module. *)
Inductive Hook : Type :=
| on_start
| on_parse
| on_validate
| on_execute
| on_end.

(** Modelled from the spec: what a hook observes of the request it wraps. *)
Record Request : Type :=
  { request_query : string;
    request_operation_name : option string;
    request_variable_values : option (gmap string value) }.

(** Modelled from the spec: an extension has an identifier and, at each
    hook, turns what it has collected for the request so far ([None]:
    nothing yet) into what it has collected now. *)
Record Extension : Type :=
  { ext_id : string;
    ext_hook : Hook → Request → option value → option value }.

(** Modelled from the spec: "States: idle → running → completed". *)
Inductive State : Type :=
| idle
| running
| completed.

(** Modelled from the spec: [strawberry.extensions.ExtensionsRunner] is not
    part of this module.  The runner is "created once per Schema (not per
    request) holding the ordered list of Extension instances; for each
    request it tracks per-request results". *)
Record t : Type :=
  { runner_extensions : list Extension;
    state : State;
    current : option Request;
    collected : gmap string value }.

(** Modelled from the spec: [ExtensionsRunner(extensions)]. *)
Definition init (extensions : list Extension) : t :=
  {| runner_extensions := extensions;
     state := idle;
     current := None;
     collected := ∅ |}.

(** Modelled from the spec: one hook, run on every extension in order; each
    extension updates its own entry of the per-request results. *)
Definition fire (h : Hook) (req : Request) (extensions : list Extension)
    (store : gmap string value) : gmap string value :=
  foldl (λ acc e, partial_alter (ext_hook e h req) (ext_id e) acc)
        store extensions.

(** Modelled from the spec: a request begins ("each call into the Execution
    Façade must reset/return fresh per-request extension state, or the
    Runner must be effectively request-scoped"): the runner drops what it
    holds, becomes [running] and runs the on-start hooks. *)
Definition start (req : Request) (r : t) : t :=
  {| runner_extensions := runner_extensions r;
     state := running;
     current := Some req;
     collected := fire on_start req (runner_extensions r) ∅ |}.

(** Modelled from the spec: a hook of the request in flight. *)
Definition step (h : Hook) (r : t) : t :=
  match current r with
  | Some req =>
      {| runner_extensions := runner_extensions r;
         state := state r;
         current := current r;
         collected := fire h req (runner_extensions r) (collected r) |}
  | None => r
  end.

(** Modelled from the spec: the request ends: the on-end hooks run and the
    runner is [completed]. *)
Definition finish (r : t) : t :=
  {| runner_extensions := runner_extensions r;
     state := completed;
     current := None;
     collected := collected (step on_end r) |}.

(** Modelled from the spec: "returns a mapping from extension identifier to
    whatever structured value that extension collected for the
    just-completed request"; a pure read. *)
Definition get_extensions_results (r : t) : gmap string value :=
  collected r.

Section Primitive.

Context {T : EngineTypes} {R : RawEngine}.

(** Modelled from the spec: what the hooks observe of a call of the
    execute primitive. *)
Definition request_of (call : ExecuteCall) : Request :=
  {| request_query := call_query call;
     request_operation_name := call_operation_name call;
     request_variable_values := call_variable_values call |}.

(** Modelled from the spec: the execute primitive ([.execute.execute], not
    part of this module) "wraps the lifetime of a single request execution
    with hook invocations": the request starts, the parse, validate and
    execute hooks run, the engine executes; the request ends here when the
    engine completed (or raised), and when the pending value is awaited
    otherwise. *)
Definition execute (call : ExecuteCall) (r : t)
  : result (AwaitableOrValue RawAwaitable) * t :=
  let r := start (request_of call) r in
  let r := step on_parse r in
  let r := step on_validate r in
  let r := step on_execute r in
  match graphql_execute call with
  | inl e => (inl e, finish r)
  | inr (Completed res) => (inr (Completed res), finish r)
  | inr (Pending aw) => (inr (Pending aw), r)
  end.

(** Modelled from the spec: awaiting the pending value of a request. *)
Definition await (aw : RawAwaitable) (r : t)
  : result GraphQLExecutionResult * t :=
  (graphql_await aw, finish r).

#[export] Instance executor : Executor :=
  Build_Executor _
    Extension t init get_extensions_results RawAwaitable execute await.

End Primitive.
End Runner.

(** ** A small engine to run the methods on *)

(** The collaborators, implemented just far enough to evaluate the methods
    of [Schema] on concrete inputs. *)

Module Fake.

(** A host type declaration: a definition with the definitions of the types
    its fields reach, or an object that is no type declaration. *)
Inductive host : Type :=
| Decl (d : AnyDefinition) (reachable : list AnyDefinition)
| NotADecl (repr : string).

#[export] Instance types : EngineTypes :=
  {| HostType := host;
     DirectiveDecl := string;
     GraphQLObjectType := string;
     GraphQLDirective := string;
     DocumentNode := string;
     SubscriptionResult := list GraphQLExecutionResult |}.

#[export] Instance TypeDefinition_eq_dec : EqDecision TypeDefinition.
Proof. solve_decision. Defined.

#[export] Instance ScalarDefinition_eq_dec : EqDecision ScalarDefinition.
Proof. solve_decision. Defined.

#[export] Instance EnumDefinition_eq_dec : EqDecision EnumDefinition.
Proof. solve_decision. Defined.

#[export] Instance AnyDefinition_eq_dec : EqDecision AnyDefinition.
Proof. solve_decision. Defined.

(** Modelled from the spec: [.types] is not part of this module.  "Every
    reachable type (including nested field types) is registered into the
    Type Registry exactly once, keyed by name; re-registration of a type
    under a name already present with a different definition is a
    construction-time failure ([DuplicateTypeNameError])". *)
Definition register (d : AnyDefinition) (tm : gmap string ConcreteType)
  : result (gmap string ConcreteType) :=
  match tm !! definition_name d with
  | None =>
      Py.ret (<[definition_name d :=
                 {| definition := d; implementation := definition_name d |}]> tm)
  | Some ct =>
      if decide (definition ct = d) then Py.ret tm
      else Py.raise (Py.Exn "DuplicateTypeNameError" (definition_name d))
  end.

Fixpoint register_all (ds : list AnyDefinition) (tm : gmap string ConcreteType)
  : result (gmap string ConcreteType) :=
  match ds with
  | [] => Py.ret tm
  | d :: ds' => Py.bind (register d tm) (register_all ds')
  end.

(** Modelled from the spec: "given a host type declaration, produce a
    ConcreteType ..., registering nested/reachable types as a side effect
    into a supplied registry"; the declaration is "externally validated",
    here. *)
Definition get_object_type (h : host) (tm : gmap string ConcreteType)
  : result (string * gmap string ConcreteType) :=
  match h with
  | NotADecl repr =>
      Py.raise (Py.Exn "ValueError" ("not a type declaration: " ++ repr)%string)
  | Decl d reachable =>
      Py.bind (register_all (d :: reachable) tm)
              (λ tm', Py.ret (definition_name d, tm'))
  end.

(** Modelled from the spec: "Directives passed in are converted to
    engine-native directive descriptors"; the registry is not touched. *)
Definition get_directive_type (d : string) (tm : gmap string ConcreteType)
  : result (string * gmap string ConcreteType) :=
  Py.ret (d, tm).

(** graphql-core's baseline: [@include], [@skip], [@deprecated]. *)
Definition specified_directives : list string :=
  ["include"; "skip"; "deprecated"].

(** graphql-core's parser refuses the empty document. *)
Definition parse (query : string) : result string :=
  if decide (query = "") then
    Py.raise (Py.Exn "GraphQLSyntaxError" "Syntax Error: Unexpected <EOF>.")
  else Py.ret query.

Definition echo (query : string) : GraphQLExecutionResult :=
  {| gql_data := Some (Py.VDict [("echo", Py.VStr query)]);
     gql_errors := None |}.

(** One event, then the sequence ends. *)
Definition subscribe (schema : GraphQLSchema) (document : string) (a : ExecArgs)
  : result (list GraphQLExecutionResult) :=
  Py.ret [echo document].

(** The [GraphQLSchema] constructor takes any list of directives: it does
    not compare their names. *)
#[export] Instance collaborators : Collaborators :=
  Build_Collaborators _
    get_object_type (λ name, name)
    get_directive_type (λ name, name)
    specified_directives
    (λ _, None)
    parse
    subscribe.

(** The query ["{ later }"] has an asynchronous resolver; ["{ partial }"]
    resolves one field and fails on another; every other query is echoed. *)
Definition graphql_execute (call : ExecuteCall)
  : result (AwaitableOrValue GraphQLExecutionResult) :=
  if decide (call_query call = "{ later }") then
    Py.ret (Pending (echo (call_query call)))
  else if decide (call_query call = "{ partial }") then
    Py.ret (Completed
      {| gql_data := Some (Py.VDict [("a", Py.VInt 1); ("b", Py.VNone)]);
         gql_errors := Some [{| message := "b failed"; path := ["b"] |}] |})
  else Py.ret (Completed (echo (call_query call))).

#[export] Instance raw_engine : RawEngine :=
  Build_RawEngine _ GraphQLExecutionResult graphql_execute (λ aw, Py.ret aw).

(** An extension that reports the query of the request: it collects it when
    the request starts. *)
Definition query_log : Runner.Extension :=
  {| Runner.ext_id := "query_log";
     Runner.ext_hook := λ h req collected,
       match h with
       | Runner.on_start => Some (Py.VStr (Runner.request_query req))
       | _ => collected
       end |}.

Definition Query : host :=
  Decl (ObjectDef {| td_name := "Query"; td_is_input := false;
                     td_fields := ["hello"; "color"] |})
       [EnumDef {| ed_name := "Color"; ed_values := ["RED"; "GREEN"] |}].

Definition no_args : ExecArgs :=
  {| variable_values := None;
     context_value := None;
     root_value := None;
     operation_name := None |}.

#[export] Instance executor : Executor := Runner.executor.

(** The Schema that
    [Schema(Query, directives=["upper"], extensions=[query_log])] builds. *)
Definition schema : Schema.t :=
  {| Schema.type_map :=
       <["Query" :=
           {| definition :=
                ObjectDef {| td_name := "Query"; td_is_input := false;
                             td_fields := ["hello"; "color"] |};
              implementation := "Query" |}]>
       (<["Color" :=
            {| definition :=
                 EnumDef {| ed_name := "Color"; ed_values := ["RED"; "GREEN"] |};
               implementation := "Color" |}]> ∅);
     Schema.middleware := [DirectivesMiddleware ["upper"]];
     Schema._schema :=
       {| schema_query := "Query";
          schema_mutation := None;
          schema_subscription := None;
          schema_directives := ["include"; "skip"; "deprecated"; "upper"];
          schema_types := [] |};
     Schema.query :=
       {| definition :=
            ObjectDef {| td_name := "Query"; td_is_input := false;
                         td_fields := ["hello"; "color"] |};
          implementation := "Query" |};
     Schema.extensions_runner := Runner.init [query_log] |}.

End Fake.

(** ** Collaborators that fail *)

(** Variations of the small engine, to run the failure paths of the methods
    on. *)

Module Faulty.

#[local] Existing Instance Fake.types.

(** A [get_object_type] that returns the engine-native type of a declaration
    and registers nothing. *)
Definition get_object_type (h : Fake.host) (tm : gmap string ConcreteType)
  : result (string * gmap string ConcreteType) :=
  match h with
  | Fake.NotADecl repr =>
      Py.raise (Py.Exn "ValueError" ("not a type declaration: " ++ repr)%string)
  | Fake.Decl d reachable => Py.ret (definition_name d, tm)
  end.

Definition forgetful : Collaborators :=
  Build_Collaborators Fake.types
    get_object_type (λ name, name)
    Fake.get_directive_type (λ name, name)
    Fake.specified_directives
    (λ _, None)
    Fake.parse
    Fake.subscribe.

(** A [GraphQLSchema] constructor that refuses two directives of one name. *)
Definition unique_directive_names (kw : GraphQLSchema) : option exn :=
  if decide (NoDup (schema_directives kw : list string)) then None
  else Some (Py.TypeError "Schema must contain uniquely named directives.").

Definition strict : Collaborators :=
  Build_Collaborators Fake.types
    Fake.get_object_type (λ name, name)
    Fake.get_directive_type (λ name, name)
    Fake.specified_directives
    unique_directive_names
    Fake.parse
    Fake.subscribe.

(** The query ["{ boom }"] has the engine raise; ["{ later boom }"] has it
    return a pending value that raises when awaited; every other query is
    echoed. *)
Definition graphql_execute (call : ExecuteCall)
  : result (AwaitableOrValue (result GraphQLExecutionResult)) :=
  if decide (call_query call = "{ boom }") then
    Py.raise (Py.Exn "RuntimeError" "boom")
  else if decide (call_query call = "{ later boom }") then
    Py.ret (Pending (Py.raise (Py.Exn "RuntimeError" "boom later")))
  else Py.ret (Completed (Fake.echo (call_query call))).

Definition raw_engine : RawEngine :=
  Build_RawEngine Fake.types
    (result GraphQLExecutionResult) graphql_execute (λ aw, aw).

Definition executor : Executor := @Runner.executor Fake.types raw_engine.

(** [Fake.schema], on the engine that raises. *)
Definition schema : @Schema.t Fake.types executor :=
  @Schema.Build_t Fake.types executor
    (Schema.type_map Fake.schema)
    (Schema.middleware Fake.schema)
    (Schema._schema Fake.schema)
    (Schema.query Fake.schema)
    (Runner.init [Fake.query_log]).

End Faulty.

(** * Properties *)

(** A method, down to the calls of the collaborators it makes. *)
Ltac unfold_method :=
  unfold Schema.method_bind, Schema.get_self, Schema.extensions_results,
    Schema.on_runner.

(** ** The two execution entry points *)

Section Execution.

Context {T : EngineTypes} {C : Collaborators} {X : Executor}.

Implicit Types (self : Schema.t) (query : string) (a : ExecArgs).

(** What [execute_sync] does when the engine completed. *)
Lemma execute_sync_completed self query a res runner :
  execute (Schema.engine_call self query a) (Schema.extensions_runner self)
    = (inr (Completed res), runner) →
  Schema.execute_sync query a self
    = (inr {| data := gql_data res;
              errors := gql_errors res;
              extensions := Some (get_extensions_results runner) |},
       Schema.with_runner self runner).
Proof.
  intros Hcall.
  unfold Schema.execute_sync; unfold_method.
  rewrite Hcall. reflexivity.
Qed.

(** What [execute] does when the engine completed. *)
Lemma execute_completed self query a res runner :
  execute (Schema.engine_call self query a) (Schema.extensions_runner self)
    = (inr (Completed res), runner) →
  Schema.execute query a self
    = (inr {| data := gql_data res;
              errors := gql_errors res;
              extensions := Some (get_extensions_results runner) |},
       Schema.with_runner self runner).
Proof.
  intros Hcall.
  unfold Schema.execute; unfold_method.
  rewrite Hcall. reflexivity.
Qed.

(** What [execute] does when the engine returned a pending value that
    resolves to a result. *)
Lemma execute_awaited self query a aw runner res runner' :
  execute (Schema.engine_call self query a) (Schema.extensions_runner self)
    = (inr (Pending aw), runner) →
  await aw runner = (inr res, runner') →
  Schema.execute query a self
    = (inr {| data := gql_data res;
              errors := gql_errors res;
              extensions := Some (get_extensions_results runner') |},
       Schema.with_runner self runner').
Proof.
  intros Hcall Hawait.
  unfold Schema.execute; unfold_method.
  rewrite Hcall. cbn. rewrite Hawait. reflexivity.
Qed.

(** What [execute_sync] does when the engine returned a pending value. *)
Lemma execute_sync_pending self query a aw runner :
  execute (Schema.engine_call self query a) (Schema.extensions_runner self)
    = (inr (Pending aw), runner) →
  Schema.execute_sync query a self
    = (inl (Py.AttributeError "'coroutine' object has no attribute 'data'"),
       Schema.with_runner self runner).
Proof.
  intros Hcall.
  unfold Schema.execute_sync; unfold_method.
  rewrite Hcall. reflexivity.
Qed.

(** C1, as the code has it: when the engine's execute primitive returns a
    pending value, [execute_sync] returns no [ExecutionResult]: reading
    [data] off the pending value raises [AttributeError] to the caller.  The
    engine was called, and the runner stays in the state the call left it
    in. *)
Theorem execute_sync_pending_raises_AttributeError self query a aw runner :
  execute (Schema.engine_call self query a) (Schema.extensions_runner self)
    = (inr (Pending aw), runner) →
  ∃ e, Schema.execute_sync query a self = (inl e, Schema.with_runner self runner)
       ∧ Py.exn_class e = "AttributeError".
Proof.
  intros Hcall.
  eexists. split; [exact (execute_sync_pending _ _ _ _ _ Hcall)|]. reflexivity.
Qed.

(** C2: when the engine's execute primitive returns a completed result,
    [execute] and [execute_sync] on the same Schema both return an
    [ExecutionResult], with identical [data] and identical [errors]. *)
Theorem execute_and_execute_sync_agree self query a res runner :
  execute (Schema.engine_call self query a) (Schema.extensions_runner self)
    = (inr (Completed res), runner) →
  ∃ x y,
    (Schema.execute query a self).1 = inr x
    ∧ (Schema.execute_sync query a self).1 = inr y
    ∧ data x = data y
    ∧ errors x = errors y.
Proof.
  intros Hcall.
  rewrite (execute_completed _ _ _ _ _ Hcall).
  rewrite (execute_sync_completed _ _ _ _ _ Hcall).
  eexists _, _. repeat split.
Qed.

(** C6: the [data] and [errors] of the engine's result are returned
    unchanged by [execute] and [execute_sync], and [extensions] is what the
    runner's [get_extensions_results()] gives in the state it is in once the
    engine's call is over (once the pending value has resolved, for
    [execute] on a pending value). *)
Theorem engine_result_passes_through self query a :
  (∀ res runner,
     execute (Schema.engine_call self query a) (Schema.extensions_runner self)
       = (inr (Completed res), runner) →
     let r := {| data := gql_data res;
                 errors := gql_errors res;
                 extensions := Some (get_extensions_results runner) |} in
     (Schema.execute query a self).1 = inr r
     ∧ (Schema.execute_sync query a self).1 = inr r)
  ∧ (∀ aw runner res runner',
       execute (Schema.engine_call self query a) (Schema.extensions_runner self)
         = (inr (Pending aw), runner) →
       await aw runner = (inr res, runner') →
       (Schema.execute query a self).1
         = inr {| data := gql_data res;
                  errors := gql_errors res;
                  extensions := Some (get_extensions_results runner') |}).
Proof.
  split.
  - intros res runner Hcall r.
    rewrite (execute_completed _ _ _ _ _ Hcall).
    rewrite (execute_sync_completed _ _ _ _ _ Hcall).
    by split.
  - intros aw runner res runner' Hcall Hawait.
    by rewrite (execute_awaited _ _ _ _ _ _ _ Hcall Hawait).
Qed.

End Execution.

(** ** Construction *)

Section Construction.

Context {T : EngineTypes} {C : Collaborators} {X : Executor}.

Implicit Types (tm : gmap string ConcreteType).

(** A sequence of two steps returned: both did. *)
Lemma build_bind_inr {A B : Type} (m : Schema.Build A) (k : A → Schema.Build B)
    tm b tm' :
  Schema.build_bind m k tm = inr (b, tm') →
  ∃ a tm1, m tm = inr (a, tm1) ∧ k a tm1 = inr (b, tm').
Proof.
  unfold Schema.build_bind. destruct (m tm) as [e|[a tm1]]; [done|].
  intros Hk. by exists a, tm1.
Qed.

(** A list comprehension that returned went through its list: it holds one
    result per element, in order, and an invariant of the registry that
    each call keeps is kept. *)
Lemma build_map_inr {A B : Type} (f : A → Schema.Build B)
    (P : gmap string ConcreteType → Prop) xs :
  (∀ x tm y tm', P tm → f x tm = inr (y, tm') → P tm') →
  ∀ tm ys tm',
    P tm → Schema.build_map f xs tm = inr (ys, tm') →
    P tm' ∧ Forall2 (λ x y, ∃ tm1 tm2, f x tm1 = inr (y, tm2)) xs ys.
Proof.
  intros Hf. induction xs as [|x xs IH]; intros tm ys tm' HP Hrun.
  - cbn in Hrun. injection Hrun as <- <-. split; [done|constructor].
  - cbn in Hrun.
    apply build_bind_inr in Hrun as (y & tm1 & Hx & Hrun).
    apply build_bind_inr in Hrun as (ys1 & tm2 & Hxs & Hrun).
    injection Hrun as <- <-.
    destruct (IH tm1 ys1 tm2 (Hf _ _ _ _ HP Hx) Hxs) as [HP' Hall].
    split; [done|]. constructor; [by eexists _, _|done].
Qed.

(** An optional root that was converted: it was passed and
    [get_object_type] returned, or it was not passed and the registry is as
    it was. *)
Lemma optional_root_inr (root : option HostType) tm g tm' :
  Schema.optional_root root tm = inr (g, tm') →
  match root with
  | Some h => ∃ g', get_object_type h tm = inr (g', tm') ∧ g = Some g'
  | None => g = None ∧ tm' = tm
  end.
Proof.
  destruct root as [h|]; cbn.
  - intros Hrun. apply build_bind_inr in Hrun as (g' & tm1 & Hh & Hrun).
    injection Hrun as <- <-. by exists g'.
  - by intros [= <- <-].
Qed.

(** The steps a construction that returned went through. *)
Lemma init_body_inr query mutation subscription directives types extensions
    tm0 self tm :
  Schema.init_body query mutation subscription directives types extensions tm0
    = inr (self, tm) →
  ∃ query_type tm1 mutation_type tm2 subscription_type tm3 converted tm4 kw_types,
    get_object_type query tm0 = inr (query_type, tm1)
    ∧ Schema.optional_root mutation tm1 = inr (mutation_type, tm2)
    ∧ Schema.optional_root subscription tm2 = inr (subscription_type, tm3)
    ∧ Schema.build_map get_directive_type directives tm3 = inr (converted, tm4)
    ∧ Schema.build_map get_object_type types tm4 = inr (kw_types, tm)
    ∧ GraphQLSchema_check (Schema._schema self) = None
    ∧ tm !! object_type_name query_type = Some (Schema.query self)
    ∧ self = {| Schema.type_map := tm;
                Schema.middleware := [DirectivesMiddleware directives];
                Schema._schema :=
                  {| schema_query := query_type;
                     schema_mutation := mutation_type;
                     schema_subscription := subscription_type;
                     schema_directives := specified_directives ++ converted;
                     schema_types := kw_types |};
                Schema.query := Schema.query self;
                Schema.extensions_runner := ExtensionsRunner_init extensions |}.
Proof.
  unfold Schema.init_body. intros Hrun.
  apply build_bind_inr in Hrun as (query_type & tm1 & Hq & Hrun).
  apply build_bind_inr in Hrun as (mutation_type & tm2 & Hm & Hrun).
  apply build_bind_inr in Hrun as (subscription_type & tm3 & Hs & Hrun).
  cbv zeta in Hrun.
  apply build_bind_inr in Hrun as (converted & tm4 & Hd & Hrun).
  apply build_bind_inr in Hrun as (kw_types & tm5 & Ht & Hrun).
  apply build_bind_inr in Hrun as (schema & tm6 & Hschema & Hrun).
  apply build_bind_inr in Hrun as (tm7 & tm8 & Hget & Hrun).
  apply build_bind_inr in Hrun as (ct & tm9 & Hlook & Hrun).
  injection Hget as <- <-.
  unfold Schema.build_lift, Schema.GraphQLSchema_new in Hschema.
  destruct (GraphQLSchema_check _) as [?|] eqn:Hcheck; [done|].
  injection Hschema as <- <-.
  unfold Schema.build_lift, Schema.type_map_getitem in Hlook.
  destruct (tm5 !! _) as [ct'|] eqn:Hct; [|done].
  injection Hlook as <- <-.
  injection Hrun as <- <-.
  assert (match subscription with
          | Some _ => subscription_type
          | None => None
          end = subscription_type) as Hsub.
  { destruct subscription; [done|].
    apply optional_root_inr in Hs as [-> _]. done. }
  rewrite Hsub in Hcheck |- *.
  exists query_type, tm1, mutation_type, tm2, subscription_type, tm3,
    converted, tm4, kw_types.
  by repeat split.
Qed.

(** A construction that returned ran the body of [__init__] on the empty
    registry. *)
Lemma init_inr query mutation subscription directives types extensions self :
  Schema.__init__ query mutation subscription directives types extensions
    = inr self →
  ∃ q tm,
    query = Some q
    ∧ Schema.init_body q mutation subscription directives types extensions ∅
        = inr (self, tm).
Proof.
  unfold Schema.__init__. destruct query as [q|]; [|done].
  destruct (Schema.init_body _ _ _ _ _ _ _) as [e|[self' tm]] eqn:Hrun; [done|].
  intros [= ->]. exists q, tm. by split.
Qed.

(** *** What the requests leave as it was *)

(** A request changes nothing of [self] but the state of the runner. *)
Lemma serve_frame rq self :
  ∃ runner, Schema.serve rq self = Schema.with_runner self runner.
Proof.
  destruct rq as [[[| |] query] a]; cbn.
  - unfold Schema.execute; unfold_method.
    destruct (execute _ _) as [[e|[res|aw]] runner]; cbn.
    + by exists runner.
    + by exists runner.
    + destruct (await aw runner) as [[e|res] runner']; cbn; by exists runner'.
  - unfold Schema.execute_sync; unfold_method.
    destruct (execute _ _) as [[e|[res|aw]] runner]; cbn; by exists runner.
  - unfold Schema.subscribe; unfold_method.
    exists (Schema.extensions_runner self).
    destruct (parse query) as [e|document]; by destruct self.
Qed.

Lemma serve_all_frame history self :
  ∃ runner, Schema.serve_all history self = Schema.with_runner self runner.
Proof.
  unfold Schema.serve_all.
  revert self. induction history as [|rq history IH]; intros self; cbn.
  - exists (Schema.extensions_runner self). by destruct self.
  - destruct (serve_frame rq self) as [runner ->].
    destruct (IH (Schema.with_runner self runner)) as [runner' ->].
    by exists runner'.
Qed.

(** The registry of a constructed Schema is keyed by name when the
    functions of [.types] register by name. *)
Lemma init_keyed_by_name query mutation subscription directives types
    extensions self :
  registers_by_name →
  Schema.__init__ query mutation subscription directives types extensions
    = inr self →
  keyed_by_name (Schema.type_map self).
Proof.
  intros [Hobject Hdirective] Hinit.
  apply init_inr in Hinit as (q & tm & -> & Hrun).
  apply init_body_inr in Hrun
    as (query_type & tm1 & mutation_type & tm2 & subscription_type & tm3
        & converted & tm4 & kw_types & Hq & Hm & Hs & Hd & Ht & _ & _ & ->).
  cbn.
  assert (keyed_by_name tm1) as H1.
  { eapply Hobject; [|exact Hq]. intros key ct Hlook.
    by rewrite lookup_empty in Hlook. }
  assert (∀ root tm tm' g,
            keyed_by_name tm → Schema.optional_root root tm = inr (g, tm') →
            keyed_by_name tm') as Hroot.
  { intros root tm' tm'' g Hk Hr. apply optional_root_inr in Hr.
    destruct root as [h|].
    - destruct Hr as (g' & Hh & _). by eapply Hobject.
    - by destruct Hr as [_ ->]. }
  assert (keyed_by_name tm2) as H2 by by eapply Hroot.
  assert (keyed_by_name tm3) as H3 by by eapply Hroot.
  assert (keyed_by_name tm4) as H4.
  { by eapply (build_map_inr get_directive_type keyed_by_name). }
  by eapply (build_map_inr get_object_type keyed_by_name).
Qed.

(** C3: on a constructed Schema, at any time of its use, [get_type_by_name]
    returns the definition of the registry's entry under exactly the name
    asked for, the name of the returned definition is the name asked for,
    and it returns [None] when the registry has no entry under that name.
    The functions of [.types] are taken to register every type under the
    name of its definition. *)
Theorem get_type_by_name_returns_the_named_definition
    query mutation subscription directives types extensions self0 history name :
  registers_by_name →
  Schema.__init__ query mutation subscription directives types extensions
    = inr self0 →
  let self := Schema.serve_all history self0 in
  Schema.get_type_by_name self name = definition <$> Schema.type_map self !! name
  ∧ (∀ d, Schema.get_type_by_name self name = Some d → definition_name d = name)
  ∧ (Schema.type_map self !! name = None →
     Schema.get_type_by_name self name = None).
Proof.
  intros Hcontract Hinit self.
  pose proof (init_keyed_by_name _ _ _ _ _ _ _ Hcontract Hinit) as Hkeyed.
  destruct (serve_all_frame history self0) as [runner Hframe].
  assert (Schema.type_map self = Schema.type_map self0) as Htm.
  { unfold self. by rewrite Hframe. }
  unfold Schema.get_type_by_name. rewrite Htm.
  destruct (Schema.type_map self0 !! name) as [ct|] eqn:Hlook; cbn.
  - repeat split; [|done]. intros d [= <-]. by apply Hkeyed.
  - by repeat split.
Qed.

(** C4: on a constructed Schema, at any time of its use, the middleware
    list among the arguments [execute] and [execute_sync] call the engine's
    execute primitive with has, as its first element, the
    [DirectivesMiddleware] built from the [directives] the constructor was
    given; and that call is the one each of the two makes: it leaves the
    runner in the state the primitive, called with these arguments, left it
    in (for [execute], once the pending value was awaited). *)
Theorem directives_middleware_is_first
    query mutation subscription directives types extensions self0 history q a :
  Schema.__init__ query mutation subscription directives types extensions
    = inr self0 →
  let self := Schema.serve_all history self0 in
  let call := Schema.engine_call self q a in
  head (call_additional_middlewares call)
    = Some (DirectivesMiddleware directives)
  ∧ (Schema.execute_sync q a self).2
    = Schema.with_runner self (execute call (Schema.extensions_runner self)).2
  ∧ (Schema.execute q a self).2
    = Schema.with_runner self
        match execute call (Schema.extensions_runner self) with
        | (inr (Pending aw), runner) => (await aw runner).2
        | (_, runner) => runner
        end.
Proof.
  intros Hinit self call.
  apply init_inr in Hinit as (q0 & tm & -> & Hrun).
  apply init_body_inr in Hrun
    as (query_type & tm1 & mutation_type & tm2 & subscription_type & tm3
        & converted & tm4 & kw_types & _ & _ & _ & _ & _ & _ & _ & Hself).
  split; [|split].
  - unfold call, self.
    destruct (serve_all_frame history self0) as [runner ->].
    rewrite Hself. reflexivity.
  - unfold Schema.execute_sync; unfold_method. fold call.
    by destruct (execute call _) as [[e|[res|aw]] runner].
  - unfold Schema.execute; unfold_method. fold call.
    destruct (execute call _) as [[e|[res|aw]] runner]; cbn; try done.
    by destruct (await aw runner) as [[e|res] runner'].
Qed.

(** C7, as the code has it: a construction that passes no query root fails
    at once, before the registry is touched, with the [TypeError] of a
    missing required argument; and a query root that [get_object_type]
    rejects fails the construction with the exception [get_object_type]
    raised. *)
Theorem init_without_query_raises_TypeError
    mutation subscription directives types extensions :
  Schema.__init__ None mutation subscription directives types extensions
    = inl (Py.TypeError
             "__init__() missing 1 required positional argument: 'query'")
  ∧ ∀ query e,
      get_object_type query ∅ = inl e →
      Schema.__init__ (Some query) mutation subscription directives types
        extensions = inl e.
Proof.
  split; [reflexivity|].
  intros query e Hq. unfold Schema.__init__, Schema.init_body.
  unfold Schema.build_bind at 1. by rewrite Hq.
Qed.


End Construction.

(** ** Subscriptions *)

Section Subscription.

Context {T : EngineTypes} {C : Collaborators} {X : Executor}.

(** C5: [subscribe] parses the query text and calls the engine's
    subscription primitive on the engine-native schema, the parsed document
    and the caller's arguments; what it returns does not depend on the
    middleware list or on the extensions runner, and the runner is left as
    it was. *)
Theorem subscribe_delegates_without_middleware self query a :
  (∀ document,
     parse query = inr document →
     Schema.subscribe query a self
       = (subscribe (Schema._schema self) document a, self))
  ∧ (∀ middleware runner,
       (Schema.subscribe query a
          {| Schema.type_map := Schema.type_map self;
             Schema.middleware := middleware;
             Schema._schema := Schema._schema self;
             Schema.query := Schema.query self;
             Schema.extensions_runner := runner |}).1
       = (Schema.subscribe query a self).1)
  ∧ (Schema.subscribe query a self).2 = self.
Proof.
  unfold Schema.subscribe; unfold_method.
  repeat split.
  - by intros document ->.
  - intros middleware runner. by destruct (parse query).
  - by destruct (parse query).
Qed.

(** C10: when the parser raises on the query text, [subscribe] raises the
    parser's exception to the caller, whatever the subscription primitive
    is, while the arguments of [execute] and [execute_sync] for the engine
    hold the query text itself. *)
Theorem subscribe_raises_the_parse_error self query a e :
  parse query = inl e →
  Schema.subscribe query a self = (inl e, self)
  ∧ call_query (Schema.engine_call self query a) = query.
Proof.
  intros Hparse. split; [|reflexivity].
  unfold Schema.subscribe; unfold_method.
  by rewrite Hparse.
Qed.

End Subscription.

(** ** Requests one after the other *)

Section Requests.

Context {T : EngineTypes} {C : Collaborators} {R : RawEngine}.

#[local] Existing Instance Runner.executor.

Implicit Types (r : Runner.t) (self : Schema.t).

Lemma step_extensions h r :
  Runner.runner_extensions (Runner.step h r) = Runner.runner_extensions r.
Proof. unfold Runner.step. by destruct (Runner.current r). Qed.

(** The execute primitive reads nothing of the runner but its list of
    extensions: what the runner collected before plays no part. *)
Lemma runner_execute_config call r r' :
  Runner.runner_extensions r = Runner.runner_extensions r' →
  Runner.execute call r = Runner.execute call r'.
Proof.
  intros Hexts. unfold Runner.execute.
  assert (Runner.start (Runner.request_of call) r
          = Runner.start (Runner.request_of call) r') as ->; [|done].
  unfold Runner.start. by rewrite Hexts.
Qed.

(** The runner's list of extensions is set once. *)
Lemma runner_execute_extensions call r :
  Runner.runner_extensions (Runner.execute call r).2 = Runner.runner_extensions r.
Proof.
  unfold Runner.execute.
  destruct (graphql_execute call) as [e|[res|aw]]; cbn;
    by rewrite ?step_extensions.
Qed.

(** A request leaves the Schema as it was, the runner's per-request state
    apart. *)
Lemma serve_config rq self :
  ∃ r, Schema.serve rq self = Schema.with_runner self r
       ∧ Runner.runner_extensions r
         = Runner.runner_extensions (Schema.extensions_runner self).
Proof.
  destruct rq as [[[| |] query] a]; cbn.
  - unfold Schema.execute; unfold_method.
    pose proof (runner_execute_extensions
      (Schema.engine_call self query a) (Schema.extensions_runner self)) as Hexts.
    change (execute ?c ?r) with (Runner.execute c r).
    destruct (Runner.execute _ _) as [[e|[res|aw]] r]; cbn in *.
    + by exists r.
    + by exists r.
    + unfold Runner.await.
      destruct (graphql_await aw) as [e|res]; cbn;
        by exists (Runner.finish r).
  - unfold Schema.execute_sync; unfold_method.
    pose proof (runner_execute_extensions
      (Schema.engine_call self query a) (Schema.extensions_runner self)) as Hexts.
    change (execute ?c ?r) with (Runner.execute c r).
    destruct (Runner.execute _ _) as [[e|[res|aw]] r]; cbn in *; by exists r.
  - unfold Schema.subscribe; unfold_method.
    exists (Schema.extensions_runner self).
    destruct (parse query) as [e|document]; by destruct self.
Qed.

Lemma serve_all_config history self :
  ∃ r, Schema.serve_all history self = Schema.with_runner self r
       ∧ Runner.runner_extensions r
         = Runner.runner_extensions (Schema.extensions_runner self).
Proof.
  unfold Schema.serve_all.
  revert self. induction history as [|rq history IH]; intros self; cbn.
  - exists (Schema.extensions_runner self). by destruct self.
  - destruct (serve_config rq self) as (r & -> & Hr).
    destruct (IH (Schema.with_runner self r)) as (r' & -> & Hr').
    exists r'. split; [done|]. by rewrite Hr'.
Qed.

(** C9: whatever requests a Schema has served, through any of its entry
    points and whatever they returned or raised, [execute] and
    [execute_sync] answer a request as the Schema would have, had it served
    none of them: [extensions] (and [data] and [errors]) hold nothing of an
    earlier request.  The runner is the one the spec describes, which starts
    every request on fresh per-request state. *)
Theorem extensions_do_not_carry_over self history query a :
  (Schema.execute query a (Schema.serve_all history self)).1
    = (Schema.execute query a self).1
  ∧ (Schema.execute_sync query a (Schema.serve_all history self)).1
    = (Schema.execute_sync query a self).1.
Proof.
  destruct (serve_all_config history self) as (r & -> & Hr).
  pose proof (runner_execute_config
    (Schema.engine_call self query a) r (Schema.extensions_runner self) Hr)
    as Hsame.
  unfold Schema.execute, Schema.execute_sync; unfold_method.
  change (execute ?c ?r) with (Runner.execute c r).
  change (Schema.engine_call (Schema.with_runner self r) query a)
    with (Schema.engine_call self query a).
  change (Schema.extensions_runner (Schema.with_runner self r)) with r.
  rewrite Hsame.
  by destruct (Runner.execute _ _) as [[e|[res|aw]] r1].
Qed.

End Requests.

(** ** The methods on concrete inputs *)

Section Checks.

#[local] Existing Instance Fake.types.
#[local] Existing Instance Fake.collaborators.
#[local] Existing Instance Fake.raw_engine.
#[local] Existing Instance Fake.executor.

Lemma fake_schema_constructed :
  Schema.__init__ (Some Fake.Query) None None ["upper"] [] [Fake.query_log]
    = inr Fake.schema.
Proof. reflexivity. Qed.

Lemma fake_register_keyed d (tm tm' : gmap string ConcreteType) :
  keyed_by_name tm → Fake.register d tm = inr tm' → keyed_by_name tm'.
Proof.
  intros Hkeyed. unfold Fake.register.
  destruct (tm !! definition_name d) as [ct|] eqn:Hlook.
  - case_decide; [|done]. by intros [= <-].
  - intros [= <-] key ct. rewrite lookup_insert.
    case_decide as Hkey; [|by apply Hkeyed].
    by intros [= <-].
Qed.

Lemma fake_register_all_keyed ds (tm tm' : gmap string ConcreteType) :
  keyed_by_name tm → Fake.register_all ds tm = inr tm' → keyed_by_name tm'.
Proof.
  revert tm. induction ds as [|d ds IH]; intros tm Hkeyed; cbn.
  - by intros [= <-].
  - destruct (Fake.register d tm) as [e|tm1] eqn:Hd; [done|]. cbn.
    apply IH. by eapply fake_register_keyed.
Qed.

(** The functions of [.types] of the small engine register by name. *)
Lemma fake_registers_by_name : registers_by_name.
Proof.
  split.
  - intros [d reachable|repr] tm g tm' Hkeyed; [|done].
    unfold get_object_type; cbn -[Fake.register_all]. unfold Py.bind.
    destruct (Fake.register_all _ _) as [e|tm1] eqn:Hall; [done|].
    intros [= <- <-]. by eapply fake_register_all_keyed.
  - intros d tm g tm' Hkeyed [= <- <-]. done.
Qed.

(** C1, as stated, does not hold: the query ["{ later }"] has the engine
    return a pending value, and [execute_sync] raises an exception that is
    no [SynchronousExecutionError]. *)
Lemma execute_sync_pending_counterexample :
  (∃ aw runner,
     execute (Schema.engine_call Fake.schema "{ later }" Fake.no_args)
             (Schema.extensions_runner Fake.schema)
       = (inr (Pending aw), runner))
  ∧ ¬ ∃ e,
      (Schema.execute_sync "{ later }" Fake.no_args Fake.schema).1 = inl e
      ∧ Py.exn_class e = "SynchronousExecutionError".
Proof.
  split.
  - eexists _, _. reflexivity.
  - intros (e & Hraise & Hclass). vm_compute in Hraise.
    injection Hraise as <-. discriminate Hclass.
Qed.

Lemma execute_sync_pending_raises_AttributeError_witness :
  ∃ aw runner,
    execute (Schema.engine_call Fake.schema "{ later }" Fake.no_args)
            (Schema.extensions_runner Fake.schema)
      = (inr (Pending aw), runner)
    ∧ ∃ e,
        Schema.execute_sync "{ later }" Fake.no_args Fake.schema
          = (inl e, Schema.with_runner Fake.schema runner)
        ∧ Py.exn_class e = "AttributeError".
Proof.
  eexists _, _.
  assert (∀ P Q : Prop, P → (P → Q) → P ∧ Q) as Hand by tauto.
  apply Hand; [reflexivity|].
  apply (execute_sync_pending_raises_AttributeError
           Fake.schema "{ later }" Fake.no_args).
Defined.

Lemma execute_and_execute_sync_agree_witness :
  ∃ res runner,
    execute (Schema.engine_call Fake.schema "{ partial }" Fake.no_args)
            (Schema.extensions_runner Fake.schema)
      = (inr (Completed res), runner)
    ∧ ∃ x y,
        (Schema.execute "{ partial }" Fake.no_args Fake.schema).1 = inr x
        ∧ (Schema.execute_sync "{ partial }" Fake.no_args Fake.schema).1 = inr y
        ∧ data x = data y
        ∧ errors x = errors y.
Proof.
  eexists _, _.
  assert (∀ P Q : Prop, P → (P → Q) → P ∧ Q) as Hand by tauto.
  apply Hand; [reflexivity|].
  apply (execute_and_execute_sync_agree
           Fake.schema "{ partial }" Fake.no_args).
Defined.

Lemma get_type_by_name_returns_the_named_definition_witness :
  Schema.__init__ (Some Fake.Query) None None ["upper"] [] [Fake.query_log]
    = inr Fake.schema
  ∧ (let self :=
       Schema.serve_all [(Schema.via_execute_sync, "{ hello }", Fake.no_args)]
                        Fake.schema in
     Schema.get_type_by_name self "Color"
       = definition <$> Schema.type_map self !! "Color"
     ∧ (∀ d, Schema.get_type_by_name self "Color" = Some d →
             definition_name d = "Color")
     ∧ (Schema.type_map self !! "Color" = None →
        Schema.get_type_by_name self "Color" = None)).
Proof.
  split; [reflexivity|].
  apply (get_type_by_name_returns_the_named_definition
           (T := Fake.types) (X := Fake.executor) (Some Fake.Query) None None ["upper"] [] [Fake.query_log]
           Fake.schema
           [(Schema.via_execute_sync, "{ hello }", Fake.no_args)] "Color"
           fake_registers_by_name).
  reflexivity.
Defined.

Lemma directives_middleware_is_first_witness :
  Schema.__init__ (Some Fake.Query) None None ["upper"] [] [Fake.query_log]
    = inr Fake.schema
  ∧ (let self :=
       Schema.serve_all
         [(Schema.via_execute, "{ later }", Fake.no_args);
          (Schema.via_execute_sync, "{ later }", Fake.no_args)]
         Fake.schema in
     let call := Schema.engine_call self "{ hello }" Fake.no_args in
     head (call_additional_middlewares call)
       = Some (DirectivesMiddleware ["upper"])
     ∧ (Schema.execute_sync "{ hello }" Fake.no_args self).2
       = Schema.with_runner self
           (execute call (Schema.extensions_runner self)).2
     ∧ (Schema.execute "{ hello }" Fake.no_args self).2
       = Schema.with_runner self
           match execute call (Schema.extensions_runner self) with
           | (inr (Pending aw), runner) => (await aw runner).2
           | (_, runner) => runner
           end).
Proof.
  split; [reflexivity|].
  apply (directives_middleware_is_first
           (T := Fake.types) (X := Fake.executor) (Some Fake.Query)
           None None ["upper"] [] [Fake.query_log]).
  reflexivity.
Defined.

Lemma subscribe_delegates_without_middleware_witness :
  parse "subscription { ticks }" = inr "subscription { ticks }"
  ∧ Schema.subscribe "subscription { ticks }" Fake.no_args Fake.schema
    = (subscribe (Schema._schema Fake.schema) "subscription { ticks }"
         Fake.no_args,
       Fake.schema).
Proof.
  split; [reflexivity|].
  apply (proj1 (subscribe_delegates_without_middleware
                  Fake.schema "subscription { ticks }" Fake.no_args)).
  reflexivity.
Defined.

Lemma engine_result_passes_through_witness :
  (∃ res runner,
     execute (Schema.engine_call Fake.schema "{ partial }" Fake.no_args)
             (Schema.extensions_runner Fake.schema)
       = (inr (Completed res), runner)
     ∧ let r := {| data := gql_data res;
                   errors := gql_errors res;
                   extensions := Some (get_extensions_results runner) |} in
       (Schema.execute "{ partial }" Fake.no_args Fake.schema).1 = inr r
       ∧ (Schema.execute_sync "{ partial }" Fake.no_args Fake.schema).1 = inr r)
  ∧ (∃ aw runner res runner',
       execute (Schema.engine_call Fake.schema "{ later }" Fake.no_args)
               (Schema.extensions_runner Fake.schema)
         = (inr (Pending aw), runner)
       ∧ await aw runner = (inr res, runner')
       ∧ (Schema.execute "{ later }" Fake.no_args Fake.schema).1
         = inr {| data := gql_data res;
                  errors := gql_errors res;
                  extensions := Some (get_extensions_results runner') |}).
Proof.
  assert (∀ P Q : Prop, P → (P → Q) → P ∧ Q) as Hand by tauto.
  split.
  - eexists _, _. apply Hand; [reflexivity|].
    apply (proj1 (engine_result_passes_through
                    Fake.schema "{ partial }" Fake.no_args)).
  - eexists _, _, _, _. apply Hand; [reflexivity|]. intros Hcall.
    apply Hand; [reflexivity|].
    apply (proj2 (engine_result_passes_through
                    Fake.schema "{ later }" Fake.no_args) _ _ _ _ Hcall).
Defined.

(** C7, as stated, does not hold: the construction without a query root
    raises an exception that is no [SchemaConfigurationError]. *)
Lemma init_without_query_counterexample :
  (∃ e, Schema.__init__ None None None [] [] [] = inl e)
  ∧ ¬ ∃ e,
      Schema.__init__ None None None [] [] [] = inl e
      ∧ Py.exn_class e = "SchemaConfigurationError".
Proof.
  split; [by eexists|].
  intros (e & Hraise & Hclass). injection Hraise as <-. discriminate Hclass.
Qed.

Lemma init_without_query_raises_TypeError_witness :
  Schema.__init__ None None None [] [] []
    = inl (Py.TypeError
             "__init__() missing 1 required positional argument: 'query'")
  ∧ get_object_type (Fake.NotADecl "None") ∅
    = inl (Py.Exn "ValueError" "not a type declaration: None")
  ∧ Schema.__init__ (Some (Fake.NotADecl "None")) None None [] [] []
    = inl (Py.Exn "ValueError" "not a type declaration: None").
Proof.
  pose proof (init_without_query_raises_TypeError
                (T := Fake.types) (X := Fake.executor) None None [] [] [])
    as [Hmissing Hrejected].
  split; [exact Hmissing|]. split; [reflexivity|].
  apply Hrejected. reflexivity.
Defined.



Lemma subscribe_raises_the_parse_error_witness :
  parse "" = inl (Py.Exn "GraphQLSyntaxError" "Syntax Error: Unexpected <EOF>.")
  ∧ Schema.subscribe "" Fake.no_args Fake.schema
    = (inl (Py.Exn "GraphQLSyntaxError" "Syntax Error: Unexpected <EOF>."),
       Fake.schema)
  ∧ call_query (Schema.engine_call Fake.schema "" Fake.no_args) = "".
Proof.
  split; [reflexivity|].
  apply (subscribe_raises_the_parse_error Fake.schema "" Fake.no_args).
  reflexivity.
Defined.

(** Two requests in a row on the small engine: the answer to the second
    reports the second query, and nothing of the first. *)
Example second_request_reports_its_own_query :
  (Schema.execute_sync "{ b }" Fake.no_args
     (Schema.serve_all [(Schema.via_execute_sync, "{ a }", Fake.no_args)]
                       Fake.schema)).1
  = inr {| data := Some (Py.VDict [("echo", Py.VStr "{ b }")]);
           errors := None;
           extensions := Some {[ "query_log" := Py.VStr "{ b }" ]} |}.
Proof. reflexivity. Qed.

End Checks.

(** ** Exceptions of the engine *)

Section EngineExceptions.

Context {T : EngineTypes} {C : Collaborators} {X : Executor}.

Implicit Types (self : Schema.t) (query : string) (a : ExecArgs).

(** An exception the engine's execute primitive raises is not caught:
    [execute] and [execute_sync] both raise it to the caller, and the runner
    stays in the state the call left it in. *)
Theorem engine_exception_reaches_the_caller self query a e runner :
  execute (Schema.engine_call self query a) (Schema.extensions_runner self)
    = (inl e, runner) →
  Schema.execute query a self = (inl e, Schema.with_runner self runner)
  ∧ Schema.execute_sync query a self = (inl e, Schema.with_runner self runner).
Proof.
  intros Hcall. split.
  - unfold Schema.execute; unfold_method. by rewrite Hcall.
  - unfold Schema.execute_sync; unfold_method. by rewrite Hcall.
Qed.

(** An exception raised while [execute] awaits the engine's pending value
    is not caught either: [execute] raises it, and builds no result. *)
Theorem awaited_exception_reaches_the_caller self query a aw runner e runner' :
  execute (Schema.engine_call self query a) (Schema.extensions_runner self)
    = (inr (Pending aw), runner) →
  await aw runner = (inl e, runner') →
  Schema.execute query a self = (inl e, Schema.with_runner self runner').
Proof.
  intros Hcall Hawait.
  unfold Schema.execute; unfold_method. rewrite Hcall. cbn. by rewrite Hawait.
Qed.

(** Unless the engine returns a pending value, [execute] and [execute_sync]
    are one: the same result or the same exception, and the same state of
    the Schema afterwards. *)
Theorem execute_is_execute_sync_unless_pending self query a :
  (∀ aw,
     (execute (Schema.engine_call self query a)
              (Schema.extensions_runner self)).1 ≠ inr (Pending aw)) →
  Schema.execute query a self = Schema.execute_sync query a self.
Proof.
  intros Hnot.
  unfold Schema.execute, Schema.execute_sync; unfold_method.
  destruct (execute _ _) as [[e|[res|aw]] runner]; cbn in *; try done.
  by destruct (Hnot aw).
Qed.

End EngineExceptions.

(** ** What a construction leaves *)

Section Constructed.

Context {T : EngineTypes} {C : Collaborators} {X : Executor}.

Implicit Types (tm : gmap string ConcreteType) (self : Schema.t).

(** The body of [__init__] once the roots, the directives and the auxiliary
    types were converted: the [GraphQLSchema] constructor runs, then the
    query type is looked up in the registry. *)
Lemma init_after_conversions
    query mutation subscription directives types extensions
    query_type tm1 mutation_type tm2 subscription_type tm3 converted tm4
    kw_types tm5 :
  get_object_type query ∅ = inr (query_type, tm1) →
  Schema.optional_root mutation tm1 = inr (mutation_type, tm2) →
  Schema.optional_root subscription tm2 = inr (subscription_type, tm3) →
  Schema.build_map get_directive_type directives tm3 = inr (converted, tm4) →
  Schema.build_map get_object_type types tm4 = inr (kw_types, tm5) →
  let kw := {| schema_query := query_type;
               schema_mutation := mutation_type;
               schema_subscription := subscription_type;
               schema_directives := specified_directives ++ converted;
               schema_types := kw_types |} in
  Schema.__init__ (Some query) mutation subscription directives types extensions
  = match GraphQLSchema_check kw with
    | Some e => inl e
    | None =>
        match tm5 !! object_type_name query_type with
        | Some ct =>
            inr {| Schema.type_map := tm5;
                   Schema.middleware := [DirectivesMiddleware directives];
                   Schema._schema := kw;
                   Schema.query := ct;
                   Schema.extensions_runner := ExtensionsRunner_init extensions |}
        | None => inl (Py.KeyError (object_type_name query_type))
        end
    end.
Proof.
  intros Hq Hm Hs Hd Ht kw.
  assert (match subscription with
          | Some _ => subscription_type
          | None => None
          end = subscription_type) as Hsub.
  { destruct subscription; [done|].
    apply optional_root_inr in Hs as [-> _]. done. }
  unfold Schema.__init__, Schema.init_body, Schema.build_bind.
  rewrite Hq, Hm, Hs, Hd, Ht, Hsub.
  unfold Schema.build_lift, Schema.GraphQLSchema_new. fold kw.
  destruct (GraphQLSchema_check kw) as [e|]; [done|]. cbn.
  unfold Schema.type_map_getitem.
  by destruct (tm5 !! object_type_name query_type).
Qed.

(** Once the conversions returned, an exception of the [GraphQLSchema]
    constructor fails the construction: it is raised to the caller. *)
Theorem init_raises_what_GraphQLSchema_raises
    query mutation subscription directives types extensions
    query_type tm1 mutation_type tm2 subscription_type tm3 converted tm4
    kw_types tm5 e :
  get_object_type query ∅ = inr (query_type, tm1) →
  Schema.optional_root mutation tm1 = inr (mutation_type, tm2) →
  Schema.optional_root subscription tm2 = inr (subscription_type, tm3) →
  Schema.build_map get_directive_type directives tm3 = inr (converted, tm4) →
  Schema.build_map get_object_type types tm4 = inr (kw_types, tm5) →
  GraphQLSchema_check
    {| schema_query := query_type;
       schema_mutation := mutation_type;
       schema_subscription := subscription_type;
       schema_directives := specified_directives ++ converted;
       schema_types := kw_types |} = Some e →
  Schema.__init__ (Some query) mutation subscription directives types extensions
    = inl e.
Proof.
  intros Hq Hm Hs Hd Ht Hcheck.
  rewrite (init_after_conversions _ _ _ _ _ extensions
             _ _ _ _ _ _ _ _ _ _ Hq Hm Hs Hd Ht).
  cbv zeta. by rewrite Hcheck.
Qed.

(** Once the engine-native schema is built, a query type that the registry
    does not hold under its name fails the construction with [KeyError]. *)
Theorem init_raises_KeyError_for_unregistered_query
    query mutation subscription directives types extensions
    query_type tm1 mutation_type tm2 subscription_type tm3 converted tm4
    kw_types tm5 :
  get_object_type query ∅ = inr (query_type, tm1) →
  Schema.optional_root mutation tm1 = inr (mutation_type, tm2) →
  Schema.optional_root subscription tm2 = inr (subscription_type, tm3) →
  Schema.build_map get_directive_type directives tm3 = inr (converted, tm4) →
  Schema.build_map get_object_type types tm4 = inr (kw_types, tm5) →
  GraphQLSchema_check
    {| schema_query := query_type;
       schema_mutation := mutation_type;
       schema_subscription := subscription_type;
       schema_directives := specified_directives ++ converted;
       schema_types := kw_types |} = None →
  tm5 !! object_type_name query_type = None →
  Schema.__init__ (Some query) mutation subscription directives types extensions
    = inl (Py.KeyError (object_type_name query_type)).
Proof.
  intros Hq Hm Hs Hd Ht Hcheck Hlook.
  rewrite (init_after_conversions _ _ _ _ _ extensions
             _ _ _ _ _ _ _ _ _ _ Hq Hm Hs Hd Ht).
  cbv zeta. by rewrite Hcheck, Hlook.
Qed.

End Constructed.

(** ** A constructed Schema and its requests *)

Section InUse.

Context {T : EngineTypes} {C : Collaborators} {X : Executor}.

Implicit Types (tm : gmap string ConcreteType) (self : Schema.t).

(** No request changes the registry, the middleware list, the engine-native
    schema or [self.query]: they are, after any requests through any entry
    point, what they were before, and so is every answer of
    [get_type_by_name]. *)
Theorem requests_change_nothing_but_the_runner self history :
  let self' := Schema.serve_all history self in
  Schema.type_map self' = Schema.type_map self
  ∧ Schema.middleware self' = Schema.middleware self
  ∧ Schema._schema self' = Schema._schema self
  ∧ Schema.query self' = Schema.query self
  ∧ ∀ name, Schema.get_type_by_name self' name = Schema.get_type_by_name self name.
Proof.
  intros self'. unfold self'.
  destruct (serve_all_frame history self) as [runner ->].
  by repeat split.
Qed.

(** [self.query] of a constructed Schema is, at any time of its use, the
    registry's entry under the name of the engine-native query type, and
    [get_type_by_name] on that name returns its definition. *)
Theorem query_is_the_registered_query_type
    query mutation subscription directives types extensions self0 history :
  Schema.__init__ query mutation subscription directives types extensions
    = inr self0 →
  let self := Schema.serve_all history self0 in
  let name := object_type_name (schema_query (Schema._schema self)) in
  Schema.type_map self !! name = Some (Schema.query self)
  ∧ Schema.get_type_by_name self name = Some (definition (Schema.query self)).
Proof.
  intros Hinit self name.
  apply init_inr in Hinit as (q & tm & -> & Hrun).
  apply init_body_inr in Hrun
    as (query_type & tm1 & mutation_type & tm2 & subscription_type & tm3
        & converted & tm4 & kw_types & _ & _ & _ & _ & _ & _ & Hlook & Hself).
  assert (Schema.type_map self !! name = Some (Schema.query self)) as Hentry.
  { unfold name, self.
    destruct (serve_all_frame history self0) as [runner ->].
    rewrite Hself in Hlook |- *. exact Hlook. }
  split; [done|]. unfold Schema.get_type_by_name. by rewrite Hentry.
Qed.

(** When the functions of [.types] register every type under the name of
    its definition, the definition [self.query] carries is named as the
    engine-native query type is. *)
Theorem query_definition_is_named_as_the_query_type
    query mutation subscription directives types extensions self :
  registers_by_name →
  Schema.__init__ query mutation subscription directives types extensions
    = inr self →
  definition_name (definition (Schema.query self))
    = object_type_name (schema_query (Schema._schema self)).
Proof.
  intros Hcontract Hinit.
  pose proof (init_keyed_by_name _ _ _ _ _ _ _ Hcontract Hinit) as Hkeyed.
  apply init_inr in Hinit as (q & tm & -> & Hrun).
  apply init_body_inr in Hrun
    as (query_type & tm1 & mutation_type & tm2 & subscription_type & tm3
        & converted & tm4 & kw_types & _ & _ & _ & _ & _ & _ & Hlook & Hself).
  apply Hkeyed. rewrite Hself in Hlook |- *. exact Hlook.
Qed.

(** Every call [execute] and [execute_sync] make of the engine's execute
    primitive on a constructed Schema, after any requests, carries the
    engine-native schema built at construction, the caller's query text and
    arguments as they were passed, and a middleware list that holds the one
    [DirectivesMiddleware] and nothing else. *)
Theorem engine_call_of_a_constructed_schema
    query mutation subscription directives types extensions self0 history q a :
  Schema.__init__ query mutation subscription directives types extensions
    = inr self0 →
  Schema.engine_call (Schema.serve_all history self0) q a
  = {| call_schema := Schema._schema self0;
       call_query := q;
       call_variable_values := variable_values a;
       call_root_value := root_value a;
       call_context_value := context_value a;
       call_operation_name := operation_name a;
       call_additional_middlewares := [DirectivesMiddleware directives] |}.
Proof.
  intros Hinit.
  apply init_inr in Hinit as (q0 & tm & -> & Hrun).
  apply init_body_inr in Hrun
    as (query_type & tm1 & mutation_type & tm2 & subscription_type & tm3
        & converted & tm4 & kw_types & _ & _ & _ & _ & _ & _ & _ & Hself).
  destruct (serve_all_frame history self0) as [runner ->].
  rewrite Hself. reflexivity.
Qed.


End InUse.

(** ** The failure paths on concrete inputs *)

Section MoreChecks.

#[local] Existing Instance Fake.types.

Lemma engine_exception_reaches_the_caller_witness :
  ∃ runner,
    execute (Schema.engine_call Faulty.schema "{ boom }" Fake.no_args)
            (Schema.extensions_runner Faulty.schema)
      = (inl (Py.Exn "RuntimeError" "boom"), runner)
    ∧ Schema.execute "{ boom }" Fake.no_args Faulty.schema
      = (inl (Py.Exn "RuntimeError" "boom"),
         Schema.with_runner Faulty.schema runner)
    ∧ Schema.execute_sync "{ boom }" Fake.no_args Faulty.schema
      = (inl (Py.Exn "RuntimeError" "boom"),
         Schema.with_runner Faulty.schema runner).
Proof.
  eexists.
  assert (∀ P Q : Prop, P → (P → Q) → P ∧ Q) as Hand by tauto.
  apply Hand; [reflexivity|].
  apply (engine_exception_reaches_the_caller
           Faulty.schema "{ boom }" Fake.no_args).
Defined.

Lemma awaited_exception_reaches_the_caller_witness :
  ∃ aw runner runner',
    execute (Schema.engine_call Faulty.schema "{ later boom }" Fake.no_args)
            (Schema.extensions_runner Faulty.schema)
      = (inr (Pending aw), runner)
    ∧ await aw runner = (inl (Py.Exn "RuntimeError" "boom later"), runner')
    ∧ Schema.execute "{ later boom }" Fake.no_args Faulty.schema
      = (inl (Py.Exn "RuntimeError" "boom later"),
         Schema.with_runner Faulty.schema runner').
Proof.
  eexists _, _, _.
  assert (∀ P Q : Prop, P → (P → Q) → P ∧ Q) as Hand by tauto.
  apply Hand; [reflexivity|]. intros Hcall.
  apply Hand; [reflexivity|].
  apply (awaited_exception_reaches_the_caller
           Faulty.schema "{ later boom }" Fake.no_args _ _ _ _ Hcall).
Defined.

Lemma execute_is_execute_sync_unless_pending_witness :
  (∀ aw,
     (execute (Schema.engine_call Fake.schema "{ hello }" Fake.no_args)
              (Schema.extensions_runner Fake.schema)).1 ≠ inr (Pending aw))
  ∧ Schema.execute "{ hello }" Fake.no_args Fake.schema
    = Schema.execute_sync "{ hello }" Fake.no_args Fake.schema.
Proof.
  assert (∀ P Q : Prop, P → (P → Q) → P ∧ Q) as Hand by tauto.
  apply Hand; [intros aw Hpending; discriminate Hpending|].
  apply (execute_is_execute_sync_unless_pending
           Fake.schema "{ hello }" Fake.no_args).
Defined.

Lemma init_raises_what_GraphQLSchema_raises_witness :
  @GraphQLSchema_check _ Faulty.strict
    {| schema_query := "Query";
       schema_mutation := None;
       schema_subscription := None;
       schema_directives := ["include"; "skip"; "deprecated"; "skip"];
       schema_types := [] |}
    = Some (Py.TypeError "Schema must contain uniquely named directives.")
  ∧ @Schema.__init__ _ Faulty.strict Fake.executor
      (Some Fake.Query) None None ["skip"] [] []
    = inl (Py.TypeError "Schema must contain uniquely named directives.").
Proof.
  split; [reflexivity|].
  eapply (init_raises_what_GraphQLSchema_raises
            (C := Faulty.strict) (X := Fake.executor)
            Fake.Query None None ["skip"] [] []).
  - reflexivity.
  - reflexivity.
  - reflexivity.
  - reflexivity.
  - reflexivity.
  - reflexivity.
Defined.

Lemma init_raises_KeyError_for_unregistered_query_witness :
  @get_object_type _ Faulty.forgetful Fake.Query ∅ = inr ("Query", ∅)
  ∧ @Schema.__init__ _ Faulty.forgetful Fake.executor
      (Some Fake.Query) None None ["upper"] [] []
    = inl (Py.KeyError "Query").
Proof.
  split; [reflexivity|].
  eapply (init_raises_KeyError_for_unregistered_query
            (C := Faulty.forgetful) (X := Fake.executor)
            Fake.Query None None ["upper"] [] []).
  - reflexivity.
  - reflexivity.
  - reflexivity.
  - reflexivity.
  - reflexivity.
  - reflexivity.
  - reflexivity.
Defined.

End MoreChecks.

(** ** A constructed Schema on concrete inputs *)

Section ChecksInUse.

#[local] Existing Instance Fake.types.
#[local] Existing Instance Fake.collaborators.
#[local] Existing Instance Fake.raw_engine.
#[local] Existing Instance Fake.executor.

Lemma query_is_the_registered_query_type_witness :
  @Schema.__init__ _ Fake.collaborators Fake.executor
    (Some Fake.Query) None None ["upper"] [] [Fake.query_log]
    = inr Fake.schema
  ∧ (let self :=
       Schema.serve_all
         [(Schema.via_execute, "{ later }", Fake.no_args);
          (Schema.via_subscribe, "", Fake.no_args)]
         Fake.schema in
     let name :=
       @object_type_name _ Fake.collaborators
         (schema_query (Schema._schema self)) in
     Schema.type_map self !! name = Some (Schema.query self)
     ∧ Schema.get_type_by_name self name
       = Some (definition (Schema.query self))).
Proof.
  split; [reflexivity|].
  apply (query_is_the_registered_query_type
           (C := Fake.collaborators) (X := Fake.executor)
           (Some Fake.Query) None None ["upper"] [] [Fake.query_log]).
  reflexivity.
Defined.

Lemma query_definition_is_named_as_the_query_type_witness :
  @Schema.__init__ _ Fake.collaborators Fake.executor
    (Some Fake.Query) None None ["upper"] [] [Fake.query_log]
    = inr Fake.schema
  ∧ definition_name (definition (Schema.query Fake.schema))
    = @object_type_name _ Fake.collaborators
        (schema_query (Schema._schema Fake.schema)).
Proof.
  split; [reflexivity|].
  apply (query_definition_is_named_as_the_query_type
           (C := Fake.collaborators) (X := Fake.executor)
           (Some Fake.Query) None None ["upper"] [] [Fake.query_log]
           Fake.schema fake_registers_by_name).
  reflexivity.
Defined.

Lemma engine_call_of_a_constructed_schema_witness :
  @Schema.__init__ _ Fake.collaborators Fake.executor
    (Some Fake.Query) None None ["upper"] [] [Fake.query_log]
    = inr Fake.schema
  ∧ Schema.engine_call
      (Schema.serve_all
         [(Schema.via_execute_sync, "{ later }", Fake.no_args);
          (Schema.via_execute, "{ partial }", Fake.no_args)]
         Fake.schema)
      "{ hello }" Fake.no_args
    = {| call_schema := Schema._schema Fake.schema;
         call_query := "{ hello }";
         call_variable_values := None;
         call_root_value := None;
         call_context_value := None;
         call_operation_name := None;
         call_additional_middlewares := [DirectivesMiddleware ["upper"]] |}.
Proof.
  split; [reflexivity|].
  apply (engine_call_of_a_constructed_schema
           (C := Fake.collaborators) (X := Fake.executor)
           (Some Fake.Query) None None ["upper"] [] [Fake.query_log]).
  reflexivity.
Defined.


End ChecksInUse.
